(** * RoseyRecords: the Studio accessibility probe

    A verification development for
    [verification/verify_studio_accessibility_final.py].

    The script is a straight line of calls into Playwright, wrapped in a
    [with sync_playwright()] block and run from a [try]/[except Exception]
    at module level.  Its observable behaviour is: the lines it prints,
    the file it writes, the browser processes it starts and ends, the
    order of the calls it makes, and the status the interpreter exits
    with.  The browser and the application under test are external: they
    are a parameter of the development (a [world]), and the script is
    embedded as a computation in a state-and-exception monad over it. *)

From Stdlib Require Import ZArith.
From stdpp Require Import base strings gmap list.

Local Open Scope string_scope.
Local Open Scope list_scope.

(** ** Python exceptions *)

(** The classes below [Exception] that the Playwright calls of the script
    raise. *)
Inductive exception :=
| AssertionError (msg : string)   (* raised by [expect(...)] *)
| PlaywrightError (msg : string)  (* playwright.sync_api.Error *)
| TimeoutError (msg : string).    (* playwright.sync_api.TimeoutError *)

(** Everything that can be raised: [BaseException].  [KeyboardInterrupt]
    and [SystemExit] derive from [BaseException] but not from
    [Exception]. *)
Inductive base_exception :=
| Exception (e : exception)
| KeyboardInterrupt
| SystemExit (code : Z).

Definition isinstance_Exception (e : base_exception) : bool :=
  match e with
  | Exception _ => true
  | KeyboardInterrupt | SystemExit _ => false
  end.

(** [str(e)], what an f-string interpolates. *)
Definition str (e : exception) : string :=
  match e with
  | AssertionError msg | PlaywrightError msg | TimeoutError msg => msg
  end.

(** ** The Playwright calls of the script *)

Inductive locator :=
| get_by_label (text : string) (exact : bool)
| get_by_text (text : string).

Inductive api_call :=
| sync_playwright_enter
| chromium_launch (headless : bool)
| new_context
| new_page
| add_init_script (script : string)
| goto (url : string)
| wait_for_load_state (state : string)
| screenshot (path : string) (full_page : bool)
| expect_to_be_visible (l : locator)
| click (l : locator)
| expect_to_have_attribute (l : locator) (name value : string)
| browser_close.

#[global] Instance locator_eq_dec : EqDecision locator.
Proof. solve_decision. Defined.

#[global] Instance api_call_eq_dec : EqDecision api_call.
Proof. solve_decision. Defined.

(** ** The world outside the script *)

Definition image := list Byte.byte.

(** What the browser, the application and Playwright answer.  [raises c]
    is the exception the call [c] ends with, if any (browser missing,
    navigation timeout, element not found, an interrupt delivered during
    the call).  [visible] and [attribute] are what the page shows for a
    locator at the moment the script asks; [rendering] is the picture of
    the page.  [message c] is the text Playwright gives to the
    [AssertionError] of the assertion [c] when it fails.
    [stop_ends_browsers] tells whether stopping the Playwright driver, on
    leaving the [with] block, ends the browser processes launched
    through it: Playwright documents that it does, the script has no say
    in it. *)
Record world := {
  raises : api_call -> option base_exception;
  visible : locator -> bool;
  attribute : locator -> string -> option string;
  rendering : bool -> image;
  message : api_call -> string;
  stop_ends_browsers : bool
}.

(** ** State of the process and of its surroundings *)

Record state := {
  fs : gmap string image;      (* files, by absolute path *)
  stdout : list string;        (* lines printed, oldest first *)
  calls : list api_call;       (* Playwright calls made, oldest first *)
  spawned : nat;               (* browser processes started *)
  terminated : nat             (* browser processes ended *)
}.

Definition init (files : gmap string image) : state :=
  {| fs := files; stdout := []; calls := []; spawned := 0; terminated := 0 |}.

(** ** The monad: state and exceptions *)

Inductive result (A : Type) :=
| Normal (a : A)
| Raised (e : base_exception).
Arguments Normal {A} a.
Arguments Raised {A} e.

Definition py (A : Type) := state -> result A * state.

#[global] Instance py_ret : MRet py := fun A a s => (Normal a, s).

(** Sequencing: the first exception ends the computation. *)
#[global] Instance py_bind : MBind py := fun A B k m s =>
  match m s with
  | (Normal a, s1) => k a s1
  | (Raised e, s1) => (Raised e, s1)
  end.

(** [print(line)] *)
Definition print (line : string) : py unit :=
  fun s =>
    (Normal tt,
     {| fs := fs s; stdout := stdout s ++ [line]; calls := calls s;
        spawned := spawned s; terminated := terminated s |}).

(** [exit(code)] raises [SystemExit(code)]. *)
Definition exit {A} (code : Z) : py A :=
  fun s => (Raised (SystemExit code), s).

(** [try: body except Exception as e: handler] *)
Definition try_except_Exception {A} (body : py A)
    (handler : exception -> py A) : py A :=
  fun s =>
    match body s with
    | (Raised (Exception e), s1) => handler e s1
    | other => other
    end.

(** The status the interpreter ends the process with, from how the
    module body ended: [0] after its last statement, the code of an
    uncaught [SystemExit] (of which the system keeps the low eight
    bits), [1] with a traceback for an uncaught exception, and for an
    uncaught [KeyboardInterrupt] the death by [SIGINT] of CPython 3.8 and
    later, which a shell reports as [130]. *)
Definition python_exit_status (r : result unit) : Z :=
  match r with
  | Normal _ => 0
  | Raised (SystemExit code) => (code mod 256)%Z
  | Raised KeyboardInterrupt => 130
  | Raised (Exception _) => 1
  end.

Section Playwright.

Variable w : world.

(** The [AssertionError] of [expect(l).to_be_visible()]. *)
Definition expected_visible (l : locator) : exception :=
  AssertionError (message w (expect_to_be_visible l)).

(** The [AssertionError] of [expect(l).to_have_attribute(name, value)]. *)
Definition expected_attribute (l : locator) (name value : string)
    : exception :=
  AssertionError (message w (expect_to_have_attribute l name value)).

(** How a call ends: with what the world raises, and for the two
    [expect] assertions with an [AssertionError] when the page does not
    show what is expected. *)
Definition outcome (c : api_call) : option base_exception :=
  match raises w c with
  | Some e => Some e
  | None =>
      match c with
      | expect_to_be_visible l =>
          if visible w l then None
          else Some (Exception (expected_visible l))
      | expect_to_have_attribute l name value =>
          if decide (attribute w l name = Some value) then None
          else Some (Exception (expected_attribute l name value))
      | _ => None
      end
  end.

(** What a call that returns has done: a launch starts one browser
    process, closing the browser ends one, a screenshot writes the
    picture at its path over whatever was there. *)
Definition effect (c : api_call) (s : state) : state :=
  match c with
  | chromium_launch _ =>
      {| fs := fs s; stdout := stdout s; calls := calls s;
         spawned := S (spawned s); terminated := terminated s |}
  | screenshot path full_page =>
      {| fs := <[path := rendering w full_page]> (fs s);
         stdout := stdout s; calls := calls s;
         spawned := spawned s; terminated := terminated s |}
  | browser_close =>
      {| fs := fs s; stdout := stdout s; calls := calls s;
         spawned := spawned s; terminated := S (terminated s) |}
  | _ => s
  end.

Definition record_call (c : api_call) (s : state) : state :=
  {| fs := fs s; stdout := stdout s; calls := calls s ++ [c];
     spawned := spawned s; terminated := terminated s |}.

Definition call (c : api_call) : py unit :=
  fun s =>
    match outcome c with
    | Some e => (Raised e, record_call c s)
    | None => (Normal tt, effect c (record_call c s))
    end.

(** Leaving the [with sync_playwright()] block stops the Playwright
    driver.  What that does to the browser processes still running is
    not the script's: it is the world's [stop_ends_browsers]. *)
Definition playwright_stop (s : state) : state :=
  {| fs := fs s; stdout := stdout s; calls := calls s;
     spawned := spawned s;
     terminated :=
       if stop_ends_browsers w then spawned s else terminated s |}.

(** [with sync_playwright() as p: body].  [__exit__] runs however the
    body ends, and lets an exception of the body through. *)
Definition with_sync_playwright {A} (body : py A) : py A :=
  fun s =>
    match call sync_playwright_enter s with
    | (Raised e, s1) => (Raised e, s1)
    | (Normal _, s1) =>
        let (r, s2) := body s1 in (r, playwright_stop s2)
    end.

(** *** The script *)

Definition onboarding_script : string :=
  "localStorage.setItem('harmoniq-studio-onboarding', 'true');".
Definition studio_url : string := "http://localhost:3001/studio".
Definition screenshot_path : string := "/app/verification/studio_a11y.png".
Definition tip_verified : string :=
  "Verified: Production Tip button has correct ARIA label".
Definition piano_verified : string :=
  "Verified: Piano Key (C) exists and has correct attributes".
Definition success_line : string :=
  "SUCCESS: Accessibility verification passed.".

Definition tip_button : locator := get_by_label "Get new production tip" false.
Definition c_key : locator := get_by_label "Note C" true.

Definition verify_studio_accessibility : py unit :=
  with_sync_playwright (
    call (chromium_launch true) ;;
    call new_context ;;
    call new_page ;;
    call (add_init_script onboarding_script) ;;
    call (goto studio_url) ;;
    call (wait_for_load_state "networkidle") ;;
    call (screenshot screenshot_path true) ;;
    call (expect_to_be_visible tip_button) ;;
    print tip_verified ;;
    call (click (get_by_text "Theory")) ;;
    call (expect_to_be_visible c_key) ;;
    call (expect_to_have_attribute c_key "aria-pressed" "false") ;;
    print piano_verified ;;
    call browser_close).

(** The module body under [if __name__ == "__main__":]. *)
Definition main : py unit :=
  try_except_Exception
    (verify_studio_accessibility ;; print success_line)
    (fun e => print ("FAILURE: " +:+ str e) ;; exit 1).

End Playwright.

(** ** Reading a run *)

(** The calls of the script, in the order of the source. *)
Definition script : list api_call :=
  [ sync_playwright_enter; chromium_launch true; new_context; new_page;
    add_init_script onboarding_script; goto studio_url;
    wait_for_load_state "networkidle"; screenshot screenshot_path true;
    expect_to_be_visible tip_button; click (get_by_text "Theory");
    expect_to_be_visible c_key;
    expect_to_have_attribute c_key "aria-pressed" "false"; browser_close ].

Definition take_screenshot : api_call := screenshot screenshot_path true.

(** The three assertions of the script. *)
Definition is_assertion (c : api_call) : bool :=
  match c with
  | expect_to_be_visible _ | expect_to_have_attribute _ _ _ => true
  | _ => false
  end.

Definition succeeds (w : world) (c : api_call) : bool :=
  match outcome w c with
  | None => true
  | Some _ => false
  end.

(** Every step of the script succeeds. *)
Definition all_succeed (w : world) : bool := forallb (succeeds w) script.

(** Every step up to and including the screenshot succeeds. *)
Definition screenshot_taken (w : world) : bool :=
  forallb (succeeds w) (take 8 script).

(** No call of the script is cut short by something that is not an
    [Exception] (an interrupt, a [SystemExit]). *)
Definition no_interrupt (w : world) : bool :=
  forallb
    (fun c =>
       match raises w c with
       | Some e => isinstance_Exception e
       | None => true
       end)
    script.

Definition called (c : api_call) (s : state) : bool :=
  bool_decide (c ∈ calls s).

Fixpoint index_of (c : api_call) (l : list api_call) : option nat :=
  match l with
  | [] => None
  | x :: l' => if decide (c = x) then Some 0 else S <$> index_of c l'
  end.

(** [a] was called, and earlier than [b]. *)
Definition precedes (a b : api_call) (l : list api_call) : bool :=
  match index_of a l, index_of b l with
  | Some i, Some j => Nat.ltb i j
  | _, _ => false
  end.

(** Whenever [b] is called in the run that ended in [s], [a] was called
    before it and had returned. *)
Definition after_completed (w : world) (a b : api_call) (s : state) : Prop :=
  called b s = true -> succeeds w a = true /\ precedes a b (calls s) = true.

Definition is_failure_line (line : string) : bool :=
  String.prefix "FAILURE:" line.

(** The lines the script can print. *)
Definition output_line (line : string) : Prop :=
  line = tip_verified \/ line = piano_verified \/ line = success_line \/
  is_failure_line line = true.

(** The number of calls of [l] that return before the first one that
    raises. *)
Fixpoint leading_successes (w : world) (l : list api_call) : nat :=
  match l with
  | [] => 0
  | c :: l' => if succeeds w c then S (leading_successes w l') else 0
  end.

(** The line is among those printed. *)
Definition printed (line : string) (s : state) : bool :=
  existsb (String.eqb line) (stdout s).

(** The two lines that give the verdict of a run. *)
Definition is_verdict_line (line : string) : bool :=
  String.eqb success_line line || is_failure_line line.

(** The run of the function ends with an exception that does not
    derive from [Exception]. *)
Definition ended_by_non_Exception (w : world) (files : gmap string image)
    : bool :=
  match (verify_studio_accessibility w (init files)).1 with
  | Raised e => negb (isinstance_Exception e)
  | Normal _ => false
  end.

(** ** Some worlds *)

(** The application as it should be, and nothing going wrong. *)
Definition healthy : world :=
  {| raises := fun _ => None;
     visible := fun _ => true;
     attribute := fun _ name =>
       if decide (name = "aria-pressed") then Some "false" else None;
     rendering := fun _ => [];
     message := fun c =>
       match c with
       | expect_to_have_attribute _ _ value =>
           "Locator expected to have attribute '" +:+ value +:+ "'"
       | _ => "Locator expected to be visible"
       end;
     stop_ends_browsers := true |}.

(** The same, except that the call [c] raises [e]. *)
Definition raising_at (c : api_call) (e : base_exception) : world :=
  {| raises := fun c' => if decide (c' = c) then Some e else None;
     visible := visible healthy;
     attribute := attribute healthy;
     rendering := rendering healthy;
     message := message healthy;
     stop_ends_browsers := stop_ends_browsers healthy |}.

(** The same, except that the page does not show the element [l]. *)
Definition hiding (l : locator) : world :=
  {| raises := raises healthy;
     visible := fun l' => if decide (l' = l) then false else true;
     attribute := attribute healthy;
     rendering := rendering healthy;
     message := message healthy;
     stop_ends_browsers := stop_ends_browsers healthy |}.

(** The same, except that the piano key C is pressed. *)
Definition key_pressed : world :=
  {| raises := raises healthy;
     visible := visible healthy;
     attribute := fun _ name =>
       if decide (name = "aria-pressed") then Some "true" else None;
     rendering := rendering healthy;
     message := message healthy;
     stop_ends_browsers := stop_ends_browsers healthy |}.

(** The world [w], except that a [KeyboardInterrupt] is delivered during
    the call [c]. *)
Definition interrupting (c : api_call) (w : world) : world :=
  {| raises := fun c' =>
       if decide (c' = c) then Some KeyboardInterrupt else raises w c';
     visible := visible w;
     attribute := attribute w;
     rendering := rendering w;
     message := message w;
     stop_ends_browsers := stop_ends_browsers w |}.

(** The world [w], except that stopping the Playwright driver leaves the
    browser processes running. *)
Definition leaving_browsers (w : world) : world :=
  {| raises := raises w;
     visible := visible w;
     attribute := attribute w;
     rendering := rendering w;
     message := message w;
     stop_ends_browsers := false |}.

(** ** Symbolic execution of the script *)

Lemma run_call w c s :
  call w c s =
  match outcome w c with
  | Some e => (Raised e, record_call c s)
  | None => (Normal tt, effect w c (record_call c s))
  end.
Proof. reflexivity. Qed.

Lemma run_call_then {B} w c (k : unit -> py B) s :
  (call w c ≫= k) s =
  match outcome w c with
  | Some e => (Raised e, record_call c s)
  | None => k tt (effect w c (record_call c s))
  end.
Proof.
  unfold mbind, py_bind, call. destruct (outcome w c); reflexivity.
Qed.

Lemma run_print_then {B} line (k : unit -> py B) s :
  (print line ≫= k) s =
  k tt {| fs := fs s; stdout := stdout s ++ [line]; calls := calls s;
          spawned := spawned s; terminated := terminated s |}.
Proof. reflexivity. Qed.

(** The module body, in terms of the run of the function. *)
Lemma run_main w s :
  main w s =
  match verify_studio_accessibility w s with
  | (Normal _, s1) => print success_line s1
  | (Raised (Exception e), s1) =>
      (Raised (SystemExit 1), (print ("FAILURE: " +:+ str e) s1).2)
  | (Raised e, s1) => (Raised e, s1)
  end.
Proof.
  unfold main, try_except_Exception, mbind, py_bind.
  destruct (verify_studio_accessibility w s) as [[[]|[e| |code]] s1];
    reflexivity.
Qed.

Ltac tidy :=
  cbn [effect record_call playwright_stop print exit init
       fs stdout calls spawned terminated fst snd app] in *.

Ltac case_outcome H :=
  lazymatch type of H with
  | context [match outcome ?w ?c with _ => _ end] =>
      let E := fresh "E" in
      let e := fresh "e" in
      destruct (outcome w c) as [e|] eqn:E
  end.

Ltac step H :=
  first
    [ rewrite run_call_then in H; case_outcome H
    | rewrite run_print_then in H
    | rewrite run_call in H; case_outcome H ];
  tidy.

(** [run H] turns [H : verify_studio_accessibility w s = (r, s1)] into
    one goal per way the function can end. *)
Ltac run H :=
  unfold verify_studio_accessibility, with_sync_playwright in H;
  rewrite run_call in H; case_outcome H; tidy;
  repeat step H;
  simplify_eq; tidy.

(** [run_main_cases] does the same for the whole module body. *)
Ltac run_main_cases w files :=
  rewrite !run_main;
  let r := fresh "r" in
  let s := fresh "s" in
  let H := fresh "H" in
  destruct (verify_studio_accessibility w (init files)) as [r s] eqn:H;
  run H.

Ltac in_script := unfold script; simpl; tauto.

(** ** What the hypotheses on a world give *)

Lemma all_succeed_outcome w c :
  all_succeed w = true -> In c script -> outcome w c = None.
Proof.
  unfold all_succeed. rewrite forallb_forall. intros Hall Hin.
  specialize (Hall c Hin). unfold succeeds in Hall.
  destruct (outcome w c); [discriminate | reflexivity].
Qed.

Lemma no_interrupt_outcome w c e :
  no_interrupt w = true -> In c script -> outcome w c = Some e ->
  exists x, e = Exception x.
Proof.
  unfold no_interrupt. rewrite forallb_forall. intros Hni Hin.
  specialize (Hni c Hin). unfold outcome.
  destruct (raises w c) as [e'|].
  - intros [= <-]. destruct e'; try discriminate. eauto.
  - destruct c; try discriminate.
    + destruct (visible w l); [discriminate | intros [= <-]; eauto].
    + destruct (decide _); [discriminate | intros [= <-]; eauto].
Qed.

Lemma outcome_visible w l :
  outcome w (expect_to_be_visible l) = None -> visible w l = true.
Proof.
  unfold outcome. destruct (raises w _); [discriminate|].
  destruct (visible w l); [reflexivity | discriminate].
Qed.

Lemma outcome_attribute w l name value :
  outcome w (expect_to_have_attribute l name value) = None ->
  attribute w l name = Some value.
Proof.
  unfold outcome. destruct (raises w _); [discriminate|].
  destruct (decide _) as [Ha|]; [intros _; exact Ha | discriminate].
Qed.

(** How [after_completed] is established on a run that is known. *)
Lemma after_completed_intro w a b s :
  called b s = false \/
  (succeeds w a = true /\ precedes a b (calls s) = true) ->
  after_completed w a b s.
Proof.
  intros [Hb | Hab] Hcalled; [congruence | exact Hab].
Qed.

Ltac solve_after :=
  apply after_completed_intro;
  first
    [ left; vm_compute; reflexivity
    | right; split;
      [ unfold succeeds;
        match goal with
        | E : outcome _ ?a = None |- context [outcome _ ?a] => rewrite E
        end;
        reflexivity
      | vm_compute; reflexivity ] ].

(** ** The script on some worlds *)

Example healthy_run :
  main healthy (init ∅)
  = (Normal tt,
     {| fs := {[ screenshot_path := [] ]};
        stdout := [tip_verified; piano_verified; success_line];
        calls := script; spawned := 1; terminated := 1 |}).
Proof. vm_compute. reflexivity. Qed.

Example hidden_tip_run :
  (main (hiding tip_button) (init ∅)).1 = Raised (SystemExit 1) /\
  stdout (main (hiding tip_button) (init ∅)).2
  = ["FAILURE: Locator expected to be visible"] /\
  calls (main (hiding tip_button) (init ∅)).2 = take 9 script.
Proof. vm_compute. repeat split; reflexivity. Qed.

Example key_pressed_run :
  stdout (main key_pressed (init ∅)).2
  = [tip_verified;
     "FAILURE: Locator expected to have attribute 'false'"] /\
  python_exit_status (main key_pressed (init ∅)).1 = 1%Z.
Proof. vm_compute. repeat split; reflexivity. Qed.

(** A failed assertion skips [browser.close()]: were the exit of the
    [with] block not to end the browser, it would be left running. *)
Example failed_check_leaves_the_browser_to_the_driver :
  let w := leaving_browsers (hiding c_key) in
  spawned (main w (init ∅)).2 = 1 /\
  terminated (main w (init ∅)).2 = 0 /\
  called browser_close (main w (init ∅)).2 = false /\
  terminated (main (hiding c_key) (init ∅)).2 = 1.
Proof. vm_compute. repeat split; reflexivity. Qed.

Lemma script_NoDup : NoDup script.
Proof. apply (bool_decide_unpack _). vm_compute. exact I. Qed.

(** ** The claims *)

(** C1.  When every step of the script succeeds, the process prints the
    two confirmation lines in their order, then the success line, and
    exits with status 0. *)
Theorem full_success_prints_and_exits_0 w files :
  all_succeed w = true ->
  stdout (main w (init files)).2
  = [tip_verified; piano_verified; success_line] /\
  python_exit_status (main w (init files)).1 = 0%Z.
Proof.
  intros Hall. pose proof (fun c => all_succeed_outcome w c Hall) as Hs.
  run_main_cases w files;
    try match goal with
        | E : outcome w ?c = Some _ |- _ =>
            rewrite (Hs c) in E by in_script; discriminate E
        end.
  split; reflexivity.
Qed.

Lemma full_success_witness :
  all_succeed healthy = true /\
  stdout (main healthy (init ∅)).2
  = [tip_verified; piano_verified; success_line] /\
  python_exit_status (main healthy (init ∅)).1 = 0%Z.
Proof.
  split; [reflexivity | apply (full_success_prints_and_exits_0 healthy ∅)].
  reflexivity.
Defined.

(** C2, as amended.  For every exception derived from [Exception] that
    [verify_studio_accessibility] ends with, the module body catches it
    once: it prints one line, ["FAILURE: "] followed by the description
    of the exception, the only line of the output with that prefix, and
    the process exits with status 1.  Nothing is retried or resumed: the
    calls made are an initial segment of the script, each made once, and
    the last of them is the one that raised the exception. *)
Theorem exception_caught_once_exit_1 w files e s1 :
  verify_studio_accessibility w (init files) = (Raised (Exception e), s1) ->
  python_exit_status (main w (init files)).1 = 1%Z /\
  stdout (main w (init files)).2 = stdout s1 ++ ["FAILURE: " +:+ str e] /\
  List.filter is_failure_line (stdout (main w (init files)).2)
  = ["FAILURE: " +:+ str e] /\
  calls (main w (init files)).2 = calls s1 /\
  calls s1 `prefix_of` script /\
  NoDup (calls s1) /\
  exists c, last (calls s1) = Some c /\ outcome w c = Some (Exception e).
Proof.
  intros H. rewrite !run_main, H. cbn [fst snd print stdout calls].
  run H;
    (do 4 (split; [reflexivity|]));
    (split; [eexists; reflexivity|]);
    (split; [apply (bool_decide_unpack _); vm_compute; exact I|]);
    eexists; (split; [reflexivity | assumption]).
Qed.

Lemma exception_caught_once_witness :
  let w := raising_at (goto studio_url)
             (Exception (TimeoutError "Timeout 30000ms exceeded.")) in
  let e := TimeoutError "Timeout 30000ms exceeded." in
  let s1 := (verify_studio_accessibility w (init ∅)).2 in
  verify_studio_accessibility w (init ∅) = (Raised (Exception e), s1) /\
  (python_exit_status (main w (init ∅)).1 = 1%Z /\
   stdout (main w (init ∅)).2 = stdout s1 ++ ["FAILURE: " +:+ str e] /\
   List.filter is_failure_line (stdout (main w (init ∅)).2)
   = ["FAILURE: " +:+ str e] /\
   calls (main w (init ∅)).2 = calls s1 /\
   calls s1 `prefix_of` script /\
   NoDup (calls s1) /\
   exists c, last (calls s1) = Some c /\ outcome w c = Some (Exception e)).
Proof.
  intros w e s1.
  split; [reflexivity | apply (exception_caught_once_exit_1 w ∅ e s1)].
  reflexivity.
Defined.

(** C2, as stated, fails: a [KeyboardInterrupt] raised while the script
    waits for the network to be idle is not caught; no ["FAILURE:"] line
    is printed and the status is not 1. *)
Lemma keyboard_interrupt_is_not_caught :
  let w := raising_at (wait_for_load_state "networkidle") KeyboardInterrupt in
  (verify_studio_accessibility w (init ∅)).1 = Raised KeyboardInterrupt /\
  (main w (init ∅)).1 = Raised KeyboardInterrupt /\
  List.filter is_failure_line (stdout (main w (init ∅)).2) = [] /\
  python_exit_status (main w (init ∅)).1 <> 1%Z.
Proof.
  vm_compute. repeat split; try reflexivity. discriminate.
Qed.

(** C10.  The handler of the module body catches only what derives from
    [Exception].  When [verify_studio_accessibility] ends with anything
    else (a [KeyboardInterrupt], a [SystemExit]), the module body ends
    with that same exception, uncaught: the handler has printed nothing,
    the output has no ["FAILURE:"] line, and the status of the process is
    the one the interpreter gives to that exception, not one set by the
    handler. *)
Theorem non_Exception_propagates w files e s1 :
  verify_studio_accessibility w (init files) = (Raised e, s1) ->
  isinstance_Exception e = false ->
  main w (init files) = (Raised e, s1) /\
  List.filter is_failure_line (stdout (main w (init files)).2) = [] /\
  python_exit_status (main w (init files)).1 = python_exit_status (Raised e).
Proof.
  intros H He. rewrite !run_main, H.
  destruct e as [x| |code]; try discriminate He;
    cbn [fst snd];
    (split; [reflexivity|]); (split; [|reflexivity]);
    run H; reflexivity.
Qed.

Lemma non_Exception_propagates_witness :
  let w := raising_at (click (get_by_text "Theory")) KeyboardInterrupt in
  let s1 := (verify_studio_accessibility w (init ∅)).2 in
  (verify_studio_accessibility w (init ∅) = (Raised KeyboardInterrupt, s1) /\
   isinstance_Exception KeyboardInterrupt = false) /\
  (main w (init ∅) = (Raised KeyboardInterrupt, s1) /\
   List.filter is_failure_line (stdout (main w (init ∅)).2) = [] /\
   python_exit_status (main w (init ∅)).1
   = python_exit_status (Raised KeyboardInterrupt)).
Proof.
  intros w s1.
  split; [split; reflexivity|].
  apply (non_Exception_propagates w ∅ KeyboardInterrupt s1); reflexivity.
Defined.



(** C4.  The screenshot step precedes every assertion.  When the run is
    cut short at one of the three assertions (the visibility of the tip
    button, the visibility of the key C, its [aria-pressed] value), the
    screenshot call was made earlier and had returned, and the file at
    the fixed path holds the picture, whatever was there before. *)
Theorem screenshot_written_before_assertion_failure w files a e s1 :
  verify_studio_accessibility w (init files) = (Raised e, s1) ->
  last (calls s1) = Some a ->
  is_assertion a = true ->
  succeeds w take_screenshot = true /\
  precedes take_screenshot a (calls s1) = true /\
  fs s1 !! screenshot_path = Some (rendering w true).
Proof.
  intros H Hlast Ha. unfold succeeds, take_screenshot.
  run H; cbn in Hlast; simplify_eq; try discriminate Ha;
    (split; [reflexivity|]); (split; [reflexivity|]);
    apply lookup_insert_eq.
Qed.

Lemma screenshot_written_before_assertion_failure_witness :
  let w := hiding c_key in
  let a := expect_to_be_visible c_key in
  let e := Exception (expected_visible w c_key) in
  let s1 := (verify_studio_accessibility w (init ∅)).2 in
  (verify_studio_accessibility w (init ∅) = (Raised e, s1) /\
   last (calls s1) = Some a /\ is_assertion a = true) /\
  (succeeds w take_screenshot = true /\
   precedes take_screenshot a (calls s1) = true /\
   fs s1 !! screenshot_path = Some (rendering w true)).
Proof.
  intros w a e s1.
  split; [repeat split; vm_compute; reflexivity|].
  apply (screenshot_written_before_assertion_failure w ∅ a e s1);
    vm_compute; reflexivity.
Defined.

(** C5, as amended.  An invocation writes at most one file, and only at
    the fixed path [/app/verification/studio_a11y.png]: when every step
    up to and including the screenshot succeeds, the full-page picture is
    written there, over any file already there; otherwise nothing is
    written.  Every other path holds what it held, and the only other
    effect is the lines printed on standard output: the confirmation
    lines, the success line or a failure line. *)
Theorem at_most_one_file_at_fixed_path w files :
  fs (main w (init files)).2
  = (if screenshot_taken w
     then <[screenshot_path := rendering w true]> files else files) /\
  delete screenshot_path (fs (main w (init files)).2)
  = delete screenshot_path files /\
  Forall output_line (stdout (main w (init files)).2).
Proof.
  unfold screenshot_taken, succeeds. cbn [take script forallb].
  run_main_cases w files;
    try match goal with e : base_exception |- _ => destruct e as [x| |code] end;
    tidy;
    repeat match goal with
           | E : outcome w _ = _ |- _ => rewrite E; clear E
           end;
    cbn [andb];
    (split; [reflexivity|]);
    (split; [first [apply delete_insert_eq | reflexivity]|]);
    repeat first [apply Forall_nil_2 | apply Forall_cons_2];
    unfold output_line;
    first [ left; reflexivity
          | right; left; reflexivity
          | right; right; left; reflexivity
          | right; right; right; reflexivity ].
Qed.

(** C5, as stated, fails: when the navigation times out the invocation
    writes no file at all. *)
Lemma failed_navigation_writes_no_file :
  let w := raising_at (goto studio_url)
             (Exception (TimeoutError "Timeout 30000ms exceeded.")) in
  fs (main w (init ∅)).2 !! screenshot_path = None /\
  fs (main w (init ∅)).2 = ∅ /\
  called take_screenshot (main w (init ∅)).2 = false.
Proof. vm_compute. repeat split; reflexivity. Qed.

(** C6, as amended.  When the page does not show the element labelled
    "Get new production tip", and the run is not ended by an exception
    that does not derive from [Exception], the run exits with status 1,
    its last line of output is a ["FAILURE:"] line, and the confirmation
    line of the piano key is not printed. *)
Theorem hidden_tip_button_fails w files :
  visible w tip_button = false ->
  ended_by_non_Exception w files = false ->
  python_exit_status (main w (init files)).1 = 1%Z /\
  (exists e, last (stdout (main w (init files)).2)
             = Some ("FAILURE: " +:+ str e)) /\
  piano_verified ∉ stdout (main w (init files)).2.
Proof.
  intros Hvis. unfold ended_by_non_Exception.
  run_main_cases w files;
    try match goal with
        | E : outcome w (expect_to_be_visible tip_button) = None |- _ =>
            apply outcome_visible in E; congruence
        end;
    match goal with e : base_exception |- _ => destruct e as [x| |code] end;
    cbn [fst isinstance_Exception negb]; intros Hend; try discriminate Hend;
    tidy;
    (split; [reflexivity|]); (split; [eexists; reflexivity|]);
    rewrite ?not_elem_of_cons; repeat split;
    try apply not_elem_of_nil; discriminate.
Qed.

Lemma hidden_tip_button_fails_witness :
  let w := hiding tip_button in
  (visible w tip_button = false /\ ended_by_non_Exception w ∅ = false) /\
  (python_exit_status (main w (init ∅)).1 = 1%Z /\
   (exists e, last (stdout (main w (init ∅)).2)
              = Some ("FAILURE: " +:+ str e)) /\
   piano_verified ∉ stdout (main w (init ∅)).2).
Proof.
  intros w.
  split; [split; vm_compute; reflexivity|].
  apply (hidden_tip_button_fails w ∅); vm_compute; reflexivity.
Defined.

(** C6, as stated, fails: on a page that does not show the tip button, a
    [KeyboardInterrupt] during the navigation ends the run uncaught; no
    ["FAILURE:"] line is printed and the status is not 1. *)
Lemma hidden_tip_button_interrupted_is_not_status_1 :
  let w := interrupting (goto studio_url) (hiding tip_button) in
  visible w tip_button = false /\
  stdout (main w (init ∅)).2 = [] /\
  (main w (init ∅)).1 = Raised KeyboardInterrupt /\
  python_exit_status (main w (init ∅)).1 = 130%Z /\
  python_exit_status (main w (init ∅)).1 <> 1%Z.
Proof.
  vm_compute. repeat split; try reflexivity. discriminate.
Qed.

(** C7, as amended.  When, after the click on the Theory tab, the page
    shows no element labelled exactly "Note C", or the [aria-pressed]
    attribute of that element is anything but ["false"] (absent
    included), and the run is not ended by an exception that does not
    derive from [Exception], the run exits with status 1. *)
Theorem hidden_or_pressed_key_fails w files :
  visible w c_key = false \/ attribute w c_key "aria-pressed" <> Some "false" ->
  ended_by_non_Exception w files = false ->
  python_exit_status (main w (init files)).1 = 1%Z.
Proof.
  intros Hkey. unfold ended_by_non_Exception.
  run_main_cases w files;
    try match goal with
        | E : outcome w (expect_to_be_visible c_key) = None,
          E' : outcome w (expect_to_have_attribute c_key _ _) = None |- _ =>
            apply outcome_visible in E; apply outcome_attribute in E';
            destruct Hkey; congruence
        end;
    match goal with e : base_exception |- _ => destruct e as [x| |code] end;
    cbn [fst isinstance_Exception negb]; intros Hend; try discriminate Hend;
    reflexivity.
Qed.

Lemma hidden_or_pressed_key_fails_witness :
  ((visible key_pressed c_key = false \/
    attribute key_pressed c_key "aria-pressed" <> Some "false") /\
   ended_by_non_Exception key_pressed ∅ = false) /\
  python_exit_status (main key_pressed (init ∅)).1 = 1%Z.
Proof.
  assert (Hkey : visible key_pressed c_key = false \/
                 attribute key_pressed c_key "aria-pressed" <> Some "false")
    by (right; vm_compute; discriminate).
  split; [split; [exact Hkey | vm_compute; reflexivity]|].
  apply (hidden_or_pressed_key_fails key_pressed ∅);
    [exact Hkey | vm_compute; reflexivity].
Defined.

(** C7, as stated, fails: on a page whose key C is pressed, a
    [KeyboardInterrupt] during the click on the Theory tab ends the run
    uncaught, and the status is not 1. *)
Lemma pressed_key_interrupted_is_not_status_1 :
  let w := interrupting (click (get_by_text "Theory")) key_pressed in
  attribute w c_key "aria-pressed" = Some "true" /\
  stdout (main w (init ∅)).2 = [tip_verified] /\
  (main w (init ∅)).1 = Raised KeyboardInterrupt /\
  python_exit_status (main w (init ∅)).1 = 130%Z /\
  python_exit_status (main w (init ∅)).1 <> 1%Z.
Proof.
  vm_compute. repeat split; try reflexivity. discriminate.
Qed.

(** C8.  In every run the calls made are an initial segment of the
    script, in its order.  When the navigation is called, the init script
    was registered before it and that call had returned; when the wait
    for the idle network is called, the navigation came before it and
    had returned; when the screenshot or any of the three assertions is
    called, the wait came before it and had returned. *)
Theorem steps_in_order w files :
  let s := (main w (init files)).2 in
  calls s `prefix_of` script /\
  after_completed w (add_init_script onboarding_script) (goto studio_url) s /\
  after_completed w (goto studio_url) (wait_for_load_state "networkidle") s /\
  Forall (fun c => after_completed w (wait_for_load_state "networkidle") c s)
    [take_screenshot; expect_to_be_visible tip_button;
     expect_to_be_visible c_key;
     expect_to_have_attribute c_key "aria-pressed" "false"].
Proof.
  unfold take_screenshot.
  run_main_cases w files;
    try match goal with e : base_exception |- _ => destruct e as [x| |code] end;
    tidy; cbn zeta; cbn [calls];
    (split; [eexists; reflexivity|]);
    (split; [solve_after|]); (split; [solve_after|]);
    repeat first [apply Forall_nil_2 | apply Forall_cons_2];
    solve_after.
Qed.




(** ** Further properties of the script *)

(** X1.  The success line is never printed for a page that fails a
    check: when ["SUCCESS: Accessibility verification passed."] is in the
    output, every call of the script returned, the tip button and the key
    C were visible, and [aria-pressed] of the key was ["false"]. *)
Theorem success_line_is_sound w files :
  printed success_line (main w (init files)).2 = true ->
  all_succeed w = true /\
  visible w tip_button = true /\
  visible w c_key = true /\
  attribute w c_key "aria-pressed" = Some "false".
Proof.
  unfold all_succeed, printed, succeeds. cbn [script forallb].
  run_main_cases w files;
    try match goal with e : base_exception |- _ => destruct e as [x| |code] end;
    tidy; cbn; try discriminate.
  intros _.
  repeat match goal with
         | E : outcome w (expect_to_be_visible _) = None |- _ =>
             apply outcome_visible in E
         | E : outcome w (expect_to_have_attribute _ _ _) = None |- _ =>
             apply outcome_attribute in E
         end.
  auto.
Qed.

Lemma success_line_is_sound_witness :
  printed success_line (main healthy (init ∅)).2 = true /\
  (all_succeed healthy = true /\
   visible healthy tip_button = true /\
   visible healthy c_key = true /\
   attribute healthy c_key "aria-pressed" = Some "false").
Proof.
  split; [reflexivity | apply (success_line_is_sound healthy ∅)].
  reflexivity.
Defined.



(** X3.  The output of a run that no interrupt cuts short is what
    [verify_studio_accessibility] printed, an initial part of the two
    confirmation lines in their order, followed by exactly one verdict
    line, the success line or a failure line. *)
Theorem one_verdict_line_at_the_end w files :
  no_interrupt w = true ->
  stdout (verify_studio_accessibility w (init files)).2
    `prefix_of` [tip_verified; piano_verified] /\
  exists verdict,
    stdout (main w (init files)).2
    = stdout (verify_studio_accessibility w (init files)).2 ++ [verdict] /\
    is_verdict_line verdict = true.
Proof.
  intros Hni.
  run_main_cases w files;
    try match goal with
        | E : outcome w ?c = Some ?e |- _ =>
            destruct (no_interrupt_outcome w c e Hni ltac:(in_script) E)
              as [x ->]
        end;
    tidy;
    (split; [eexists; reflexivity | eexists; split; reflexivity]).
Qed.

Lemma one_verdict_line_at_the_end_witness :
  let w := hiding c_key in
  no_interrupt w = true /\
  (stdout (verify_studio_accessibility w (init ∅)).2
     `prefix_of` [tip_verified; piano_verified] /\
   exists verdict,
     stdout (main w (init ∅)).2
     = stdout (verify_studio_accessibility w (init ∅)).2 ++ [verdict] /\
     is_verdict_line verdict = true).
Proof.
  intros w.
  split; [reflexivity | apply (one_verdict_line_at_the_end w ∅)].
  reflexivity.
Defined.

(** X4.  Each confirmation line is printed exactly when the steps it
    stands for succeeded: the line of the tip button when every step up
    to and including its visibility assertion did, the line of the piano
    key when every step up to and including the [aria-pressed] assertion
    did. *)
Theorem confirmations_report_the_checks w files :
  printed tip_verified (main w (init files)).2
  = forallb (succeeds w) (take 9 script) /\
  printed piano_verified (main w (init files)).2
  = forallb (succeeds w) (take 12 script).
Proof.
  unfold printed, succeeds. cbn [take script forallb].
  run_main_cases w files;
    try match goal with e : base_exception |- _ => destruct e as [x| |code] end;
    tidy; split; reflexivity.
Qed.

(** X5.  A failure of [browser.close()] itself is reported as a failed
    verification: when every step before it succeeded and the close
    raises an exception, both confirmation lines are printed, then the
    failure line of that exception; the success line is not printed and
    the status is 1. *)
Theorem close_failure_after_both_confirmations w files e :
  forallb (succeeds w) (take 12 script) = true ->
  outcome w browser_close = Some (Exception e) ->
  stdout (main w (init files)).2
  = [tip_verified; piano_verified; "FAILURE: " +:+ str e] /\
  printed success_line (main w (init files)).2 = false /\
  python_exit_status (main w (init files)).1 = 1%Z.
Proof.
  unfold succeeds, printed. cbn [take script forallb].
  intros Hall Hclose.
  run_main_cases w files; try discriminate Hall;
    simplify_eq; repeat split; reflexivity.
Qed.

Lemma close_failure_after_both_confirmations_witness :
  let e := PlaywrightError "Target closed" in
  let w := raising_at browser_close (Exception e) in
  (forallb (succeeds w) (take 12 script) = true /\
   outcome w browser_close = Some (Exception e)) /\
  (stdout (main w (init ∅)).2
   = [tip_verified; piano_verified; "FAILURE: " +:+ str e] /\
   printed success_line (main w (init ∅)).2 = false /\
   python_exit_status (main w (init ∅)).1 = 1%Z).
Proof.
  intros e w.
  split; [split; reflexivity|].
  apply (close_failure_after_both_confirmations w ∅ e); reflexivity.
Defined.

(** X6.  A run stops at the first call that raises: the calls made are
    the calls of the script that returned before it, in the order of the
    script, and that call; the whole script when none raises. *)
Theorem run_stops_at_first_failure w files :
  calls (main w (init files)).2
  = take (S (leading_successes w script)) script.
Proof.
  unfold succeeds. cbn [script leading_successes]. unfold succeeds.
  run_main_cases w files;
    try match goal with e : base_exception |- _ => destruct e as [x| |code] end;
    tidy; reflexivity.
Qed.

(** X7.  The script never clicks the Theory tab on a page that does not
    show the tip button: when the click is made, the tip button was
    visible and its confirmation line is printed. *)
Theorem theory_tab_clicked_only_after_tip_check w files :
  called (click (get_by_text "Theory")) (main w (init files)).2 = true ->
  visible w tip_button = true /\
  printed tip_verified (main w (init files)).2 = true.
Proof.
  unfold printed.
  run_main_cases w files;
    try match goal with e : base_exception |- _ => destruct e as [x| |code] end;
    tidy; intros Hcalled;
    try (vm_compute in Hcalled; discriminate Hcalled);
    match goal with
    | E : outcome w (expect_to_be_visible tip_button) = None |- _ =>
        apply outcome_visible in E; split; [exact E | reflexivity]
    end.
Qed.

Lemma theory_tab_clicked_only_after_tip_check_witness :
  let w := hiding c_key in
  called (click (get_by_text "Theory")) (main w (init ∅)).2 = true /\
  (visible w tip_button = true /\
   printed tip_verified (main w (init ∅)).2 = true).
Proof.
  intros w.
  split; [vm_compute; reflexivity|].
  apply (theory_tab_clicked_only_after_tip_check w ∅).
  vm_compute; reflexivity.
Defined.

(** X8.  [browser.close()] is called only at the end of a run in which
    all three assertions passed: when it is called, the tip button and
    the key C were visible, [aria-pressed] of the key was ["false"], and
    both confirmation lines are printed. *)
Theorem browser_closed_only_after_all_checks w files :
  called browser_close (main w (init files)).2 = true ->
  visible w tip_button = true /\
  visible w c_key = true /\
  attribute w c_key "aria-pressed" = Some "false" /\
  printed tip_verified (main w (init files)).2 = true /\
  printed piano_verified (main w (init files)).2 = true.
Proof.
  unfold printed.
  run_main_cases w files;
    try match goal with e : base_exception |- _ => destruct e as [x| |code] end;
    tidy; intros Hcalled;
    try (vm_compute in Hcalled; discriminate Hcalled);
    repeat match goal with
           | E : outcome w (expect_to_be_visible _) = None |- _ =>
               apply outcome_visible in E
           | E : outcome w (expect_to_have_attribute _ _ _) = None |- _ =>
               apply outcome_attribute in E
           end;
    repeat split; solve [assumption | reflexivity].
Qed.

Lemma browser_closed_only_after_all_checks_witness :
  let w := raising_at browser_close (Exception (PlaywrightError "Target closed")) in
  called browser_close (main w (init ∅)).2 = true /\
  (visible w tip_button = true /\
   visible w c_key = true /\
   attribute w c_key "aria-pressed" = Some "false" /\
   printed tip_verified (main w (init ∅)).2 = true /\
   printed piano_verified (main w (init ∅)).2 = true).
Proof.
  intros w.
  split; [vm_compute; reflexivity|].
  apply (browser_closed_only_after_all_checks w ∅).
  vm_compute; reflexivity.
Defined.

(** The function called in a process that has already printed lines,
    made calls and found files. *)
Lemma verify_from_any_state w s :
  fs (verify_studio_accessibility w s).2
  = (if screenshot_taken w
     then <[screenshot_path := rendering w true]> (fs s) else fs s) /\
  stdout s `prefix_of` stdout (verify_studio_accessibility w s).2 /\
  calls s `prefix_of` calls (verify_studio_accessibility w s).2.
Proof.
  unfold screenshot_taken, succeeds. cbn [take script forallb].
  destruct (verify_studio_accessibility w s) as [r s'] eqn:H.
  run H; (split; [reflexivity|]);
    split; repeat apply prefix_app_r; reflexivity.
Qed.

(** X9.  Calling [verify_studio_accessibility] again changes no file:
    the screenshot is written at one fixed path, over the previous one,
    so the files after a second call, in the same world, are the files
    after the first. *)
Theorem second_call_leaves_the_same_files w s :
  fs (verify_studio_accessibility w
        (verify_studio_accessibility w s).2).2
  = fs (verify_studio_accessibility w s).2.
Proof.
  destruct (verify_from_any_state w (verify_studio_accessibility w s).2)
    as (-> & _).
  destruct (verify_from_any_state w s) as (-> & _).
  destruct (screenshot_taken w); [apply insert_insert_eq | reflexivity].
Qed.

(** X10.  [verify_studio_accessibility] only adds: whatever the process
    has printed and called before stays at the head of the output and of
    the call log, and every file that existed still exists afterwards. *)
Theorem verify_only_adds w s :
  stdout s `prefix_of` stdout (verify_studio_accessibility w s).2 /\
  calls s `prefix_of` calls (verify_studio_accessibility w s).2 /\
  dom (fs s) ⊆ dom (fs (verify_studio_accessibility w s).2).
Proof.
  destruct (verify_from_any_state w s) as (Hfs & Hout & Hcalls).
  split; [exact Hout|]. split; [exact Hcalls|].
  rewrite Hfs. destruct (screenshot_taken w); [|reflexivity].
  rewrite dom_insert_L. set_solver.
Qed.
